(** * The slackbot command parser ([sb-command-parser.py])

    A shallow embedding of [slackbot_command_parse] and of the three
    Python built-ins it relies on ([shlex.split], [str.split] and
    [int]), followed by the properties of the parser.

    Text.  A Python [str] is a sequence of code points; here it is the
    [string] of its UTF-8 bytes (a lone surrogate as the three bytes
    of its code point).  The separators of [shlex.split] and of
    [str.split(':')] are ASCII characters, and in UTF-8 a byte below
    128 is always a character of its own, so that the two split the
    bytes where they split the code points; [int] reads the code
    points back. *)

From Stdlib Require Import ZArith Ascii String.
From stdpp Require Import base strings list gmap fin_maps.

Local Open Scope Z_scope.
Local Open Scope string_scope.

(** ** Exceptions and outcomes *)

(** The two exceptions the body of the parser can raise: [ValueError]
    ([shlex.split] on bad quoting, [int] on bad text) and [IndexError]
    (subscript past the end of a list). *)
Inductive exn : Type :=
  | ValueError
  | IndexError.

(** What a call does: it returns a value or it raises. *)
Inductive outcome (A : Type) : Type :=
  | Return (a : A)
  | Raise (e : exn).
Arguments Return {A} a.
Arguments Raise {A} e.

(** ** Python built-ins on strings *)

Module Py.

(** [len(s) > 0] *)
Definition nonempty (s : string) : bool :=
  match s with
  | EmptyString => false
  | String _ _ => true
  end.

(** [s.split(sep)] for a separator of one character: the fields
    between the occurrences of [sep], empty fields kept; the result
    is never the empty list. *)
Fixpoint split (sep : ascii) (s : string) : list string :=
  match s with
  | EmptyString => [EmptyString]
  | String c s' =>
      if Ascii.eqb c sep then EmptyString :: split sep s'
      else match split sep s' with
           | f :: fs => String c f :: fs
           | [] => [String c EmptyString]
           end
  end.

(** [l[i]] for [i >= 0]: [IndexError] past the end. *)
Definition index {A : Type} (l : list A) (i : nat) : outcome A :=
  match l !! i with
  | Some x => Return x
  | None => Raise IndexError
  end.

(** *** [int(s)]

    On a [str], [int] is CPython's [PyLong_FromUnicodeObject]: the
    text is first turned into ASCII by
    [_PyUnicode_TransformDecimalAndSpaceToASCII] (a Unicode space
    becomes a blank, a Unicode decimal digit its ASCII digit), then
    read in base 10 by [PyLong_FromString].  The tables are those of
    CPython 3.11 (Unicode 14.0.0), and the bound on the number of
    digits is its default. *)

(** The code points of a text, decoded from its bytes.  [pending]
    continuation bytes are still to come for the code point whose
    leading bits are [cp]; [low] is the least code point that the
    sequence in progress may stand for.  [None]: the bytes are not
    the UTF-8 of any text. *)
Fixpoint codepoints (pending : nat) (cp low : N) (s : string)
    : option (list N) :=
  match s with
  | EmptyString =>
      match pending with
      | O => Some []
      | S _ => None
      end
  | String c s' =>
      let n := N_of_ascii c in
      match pending with
      | O =>
          if (n <? 128)%N then cons n <$> codepoints 0 0 0 s'
          else if (n <? 192)%N then None
          else if (n <? 224)%N then codepoints 1 (n - 192) 128 s'
          else if (n <? 240)%N then codepoints 2 (n - 224) 2048 s'
          else if (n <? 248)%N then codepoints 3 (n - 240) 65536 s'
          else None
      | S k =>
          if ((128 <=? n) && (n <? 192))%N then
            let cp' := (cp * 64 + (n - 128))%N in
            match k with
            | O =>
                if ((low <=? cp') && (cp' <? 1114112))%N
                then cons cp' <$> codepoints 0 0 0 s'
                else None
            | S _ => codepoints k cp' low s'
            end
          else None
      end
  end.

(** [Py_UNICODE_ISSPACE]: the characters [str.isspace] holds of. *)
Definition unicode_isspace (ch : N) : bool :=
  ((9 <=? ch) && (ch <=? 13) || (28 <=? ch) && (ch <=? 32)
   || (ch =? 133) || (ch =? 160) || (ch =? 5760)
   || (8192 <=? ch) && (ch <=? 8202)
   || (ch =? 8232) || (ch =? 8233) || (ch =? 8239) || (ch =? 8287)
   || (ch =? 12288))%N.

(** The decimal digits of Unicode come in runs of ten, from zero to
    nine; these are the zeros, from DIGIT ZERO (48) on. *)
Definition decimal_zeros : list N :=
  [48; 1632; 1776; 1984; 2406; 2534; 2662; 2790; 2918; 3046; 3174;
   3302; 3430; 3558; 3664; 3792; 3872; 4160; 4240; 6112; 6160; 6470;
   6608; 6784; 6800; 6992; 7088; 7232; 7248; 42528; 43216; 43264;
   43472; 43504; 43600; 44016; 65296; 66720; 68912; 69734; 69872;
   69942; 70096; 70384; 70736; 70864; 71248; 71360; 71472; 71904;
   72016; 72784; 73040; 73120; 92768; 92864; 93008; 120782; 120792;
   120802; 120812; 120822; 123200; 123632; 125264; 130032]%N.

(** [Py_UNICODE_TODECIMAL] *)
Definition unicode_todecimal (ch : N) : option N :=
  (λ zero, ch - zero)%N
    <$> List.find (λ zero, (zero <=? ch) && (ch <? zero + 10))%N decimal_zeros.

(** [_PyUnicode_TransformDecimalAndSpaceToASCII]: a character below
    127 stands as it is; any other is a blank when it is a space and
    its ASCII digit when it is a decimal digit; at the first character
    that is neither, a question mark is written and the text ends.
    (CPython hands a text that is all ASCII on as it is, DEL
    included; DEL and the question mark are both refused by
    [from_string] below.) *)
Fixpoint to_ascii (cps : list N) : string :=
  match cps with
  | [] => EmptyString
  | ch :: cps' =>
      if (ch <? 127)%N then String (ascii_of_N ch) (to_ascii cps')
      else if unicode_isspace ch then String " " (to_ascii cps')
      else
        match unicode_todecimal ch with
        | Some d => String (ascii_of_N (48 + d)) (to_ascii cps')
        | None => "?"
        end
  end.

(** [Py_ISSPACE], the white space [PyLong_FromString] skips: tab,
    line feed, vertical tab, form feed, carriage return and space. *)
Definition isspace (c : ascii) : bool :=
  let n := N_of_ascii c in
  ((9 <=? n) && (n <=? 13) || (n =? 32))%N.

(** The value of an ASCII digit. *)
Definition digit (c : ascii) : option Z :=
  let n := N_of_ascii c in
  if ((48 <=? n) && (n <=? 57))%N then Some (Z.of_N n - 48) else None.

Fixpoint lstrip (s : string) : string :=
  match s with
  | String c s' => if isspace c then lstrip s' else s
  | EmptyString => EmptyString
  end.

(** Trailing white space removed: a character is kept when it is
    not white space or when something is kept after it. *)
Fixpoint rstrip (s : string) : string :=
  match s with
  | EmptyString => EmptyString
  | String c s' =>
      match rstrip s' with
      | EmptyString => if isspace c then EmptyString else String c EmptyString
      | r => String c r
      end
  end.

Definition strip (s : string) : string := rstrip (lstrip s).

(** The digits of a base-10 literal, read left to right.  [sep] says
    that a digit must come next (at the start and after an
    underscore): underscores stand only between two digits. *)
Fixpoint digits (sep : bool) (acc : Z) (s : string) : option Z :=
  match s with
  | EmptyString => if sep then None else Some acc
  | String c s' =>
      if Ascii.eqb c "_" then
        if sep then None else digits true acc s'
      else
        match digit c with
        | Some d => digits false (10 * acc + d) s'
        | None => None
        end
  end.

(** [sys.int_info.default_max_str_digits] *)
Definition max_str_digits : N := 4300.

(** The number of digits of a literal, leading zeros counted and
    underscores not. *)
Fixpoint ndigits (s : string) : N :=
  match s with
  | EmptyString => 0%N
  | String c s' =>
      match digit c with
      | Some _ => N.succ (ndigits s')
      | None => ndigits s'
      end
  end.

(** A literal of more than [max_str_digits] digits is refused. *)
Definition literal (s : string) : option Z :=
  if (max_str_digits <? ndigits s)%N then None else digits true 0 s.

(** [PyLong_FromString(s, NULL, 10)] on ASCII text: white space on
    both sides skipped, an optional sign, then the literal;
    [ValueError] on anything else. *)
Definition from_string (s : string) : outcome Z :=
  let body :=
    match strip s with
    | EmptyString => None
    | String c r =>
        if Ascii.eqb c "+" then literal r
        else if Ascii.eqb c "-" then Z.opp <$> literal r
        else literal (String c r)
    end in
  match body with
  | Some n => Return n
  | None => Raise ValueError
  end.

Definition int (s : string) : outcome Z :=
  match codepoints 0 0 0 s with
  | Some cps => from_string (to_ascii cps)
  | None => Raise ValueError
  end.

End Py.

(** ** [shlex.split]

    [shlex.split(s)] runs the lexer of the standard library in POSIX
    mode with [whitespace_split] set and no comment characters, and
    collects the tokens up to the end of the text.  The lexer is a
    state machine over the characters; [read] below is its loop
    ([shlex.read_token], called until it reports the end), one
    character of [instream] at a time. *)

Module Shlex.

(** [whitespace = ' \t\r\n'] *)
Definition whitespace (c : ascii) : bool :=
  Ascii.eqb c " " || Ascii.eqb c "009" || Ascii.eqb c "013" || Ascii.eqb c "010".

(** [quotes]: the single and the double quote. *)
Definition quotes (c : ascii) : bool :=
  Ascii.eqb c "'" || Ascii.eqb c "034".

(** [escape]: the backslash. *)
Definition escape (c : ascii) : bool := Ascii.eqb c "\".

(** [escapedquotes]: the double quote. *)
Definition escapedquotes (c : ascii) : bool := Ascii.eqb c "034".

(** The lexer's [state] attribute: [' '] between tokens, ['a'] inside
    a word, a quote character inside a quoted stretch, the escape
    character right after a backslash. *)
Inductive state : Type :=
  | Blank
  | Word
  | Quoted (q : ascii)
  | Escaped (e : ascii).

Definition add (token : string) (c : ascii) : string :=
  token ++ String c EmptyString.

(** The end of one [read_token] call: a result that is empty and was
    never quoted is [None], which ends the iteration; any other
    result is a token, and the tokens of [rest] follow it. *)
Definition emit (quoted : bool) (token : string)
    (rest : outcome (list string)) : outcome (list string) :=
  if negb quoted && negb (Py.nonempty token) then Return []
  else match rest with
       | Return tokens => Return (token :: tokens)
       | Raise e => Raise e
       end.

(** [escapedstate], [quoted] and [token] start every token afresh
    ([Blank], [false], empty). *)
Fixpoint read (st escapedstate : state) (quoted : bool) (token : string)
    (instream : string) : outcome (list string) :=
  match instream with
  | EmptyString =>
      match st with
      | Blank | Word => emit quoted token (Return [])
      | Quoted _ => Raise ValueError      (* No closing quotation *)
      | Escaped _ => Raise ValueError     (* No escaped character *)
      end
  | String nextchar instream' =>
      match st with
      | Blank =>
          if whitespace nextchar then
            if Py.nonempty token || quoted
            then emit quoted token (read Blank Blank false EmptyString instream')
            else read Blank escapedstate quoted token instream'
          else if escape nextchar then
            read (Escaped nextchar) Word quoted token instream'
          else if quotes nextchar then
            read (Quoted nextchar) escapedstate quoted token instream'
          else
            read Word escapedstate quoted (String nextchar EmptyString) instream'
      | Quoted q =>
          if Ascii.eqb nextchar q then
            read Word escapedstate true token instream'
          else if escape nextchar && escapedquotes q then
            read (Escaped nextchar) (Quoted q) true token instream'
          else
            read (Quoted q) escapedstate true (add token nextchar) instream'
      | Escaped e =>
          let token :=
            match escapedstate with
            | Quoted q =>
                if negb (Ascii.eqb nextchar e) && negb (Ascii.eqb nextchar q)
                then add token e else token
            | _ => token
            end in
          read escapedstate escapedstate quoted (add token nextchar) instream'
      | Word =>
          if whitespace nextchar then
            if Py.nonempty token || quoted
            then emit quoted token (read Blank Blank false EmptyString instream')
            else read Blank escapedstate quoted token instream'
          else if quotes nextchar then
            read (Quoted nextchar) escapedstate quoted token instream'
          else if escape nextchar then
            read (Escaped nextchar) Word quoted token instream'
          else
            read Word escapedstate quoted (add token nextchar) instream'
      end
  end.

Definition split (s : string) : outcome (list string) :=
  read Blank Blank false EmptyString s.

End Shlex.

(** ** The returned dictionary *)

(** A value stored under a key: a Python [str] or a Python [int]. *)
Inductive value : Type :=
  | VStr (s : string)
  | VInt (n : Z).

#[global] Instance value_eq_dec : EqDecision value.
Proof. solve_decision. Defined.

(** The dictionaries the parser builds: keys are strings. *)
Abbreviation dict := (gmap string value).

(** ** Statements: a local [ret_dict] and exceptions

    A statement of the body reads and assigns the local variable
    [ret_dict] and may raise.  The variable keeps the value it had when
    the exception was raised: the handler reads it. *)

Definition M (A : Type) : Type := dict → outcome A * dict.

Definition ret {A : Type} (a : A) : M A := λ ret_dict, (Return a, ret_dict).

Definition bind {A B : Type} (m : M A) (k : A → M B) : M B :=
  λ ret_dict,
    match m ret_dict with
    | (Return a, ret_dict') => k a ret_dict'
    | (Raise e, ret_dict') => (Raise e, ret_dict')
    end.

Notation "'let!' x := m 'in' k" := (bind m (λ x, k))
  (at level 10, x name, m at level 100, k at level 200,
   format "'[v' 'let!'  x  :=  m  'in' '/' k ']'").
Notation "m >> k" := (bind m (λ _, k))
  (at level 100, k at level 200, right associativity,
   format "'[v' m  >> '/' k ']'").

(** A call of a built-in: its outcome, [ret_dict] untouched. *)
Definition call {A : Type} (o : outcome A) : M A := λ ret_dict, (o, ret_dict).

(** [ret_dict = d] *)
Definition assign (d : dict) : M unit := λ _, (Return tt, d).

(** The value of [ret_dict]. *)
Definition read_ret_dict : M dict := λ ret_dict, (Return ret_dict, ret_dict).

(** [if c: body] without an [else]. *)
Definition when (c : bool) (body : M unit) : M unit :=
  if c then body else ret tt.

(** [a and b] on conditions: [b] is evaluated only when [a] is true. *)
Definition and_then (a b : M bool) : M bool :=
  let! x := a in if x then b else ret false.
Infix "&&&" := and_then (at level 40, left associativity).

(** [try: body  except: handler] with a bare [except], which catches
    every exception. *)
Definition try_except {A : Type} (body handler : M A) : M A :=
  λ ret_dict,
    match body ret_dict with
    | (Return a, ret_dict') => (Return a, ret_dict')
    | (Raise _, ret_dict') => handler ret_dict'
    end.

(** ** [slackbot_command_parse] *)

Definition priority_level_list : list Z := [0; 1; 2].

Definition col_command : string := "Command".
Definition col_taskname : string := "Task Name".
Definition col_taskdesc : string := "Task Description".
Definition col_priolevel : string := "Priority Level".
Definition col_percent : string := "Percent Completion".

(** The dictionary display with the five columns. *)
Definition display (command taskname taskdesc priolevel percent : value) : dict :=
  <[col_command := command]>
    (<[col_taskname := taskname]>
      (<[col_taskdesc := taskdesc]>
        (<[col_priolevel := priolevel]>
          (<[col_percent := percent]> ∅)))).

(** [len(param_list[i]) > 0] *)
Definition len_positive (param_list : list string) (i : nat) : M bool :=
  let! p := call (Py.index param_list i) in ret (Py.nonempty p).

(** [int(param_list[i])] *)
Definition int_at (param_list : list string) (i : nat) : M Z :=
  let! p := call (Py.index param_list i) in call (Py.int p).

(** [int(param_list[i]) in priority_level_list] *)
Definition in_priority_levels (param_list : list string) (i : nat) : M bool :=
  let! n := int_at param_list i in ret (bool_decide (n ∈ priority_level_list)).

(** [int(param_list[i]) in range(0,101)] *)
Definition in_percent_range (param_list : list string) (i : nat) : M bool :=
  let! n := int_at param_list i in ret ((0 <=? n)%Z && (n <? 101)%Z).

(** specific processing for: create *)
Definition block_create (parsed_input : list string) : M unit :=
  let COMMAND := "create" in
  let! p1 := call (Py.index parsed_input 1) in
  when (String.eqb p1 COMMAND) (
    let! p2 := call (Py.index parsed_input 2) in
    let param_list := Py.split ":" p2 in
    when (length param_list =? 4)%nat (
      let! c := len_positive param_list 0 &&& len_positive param_list 1
                &&& in_priority_levels param_list 2
                &&& in_percent_range param_list 3 in
      when c (
        let! tn := call (Py.index param_list 0) in
        let! td := call (Py.index param_list 1) in
        let! pl := int_at param_list 2 in
        let! pc := int_at param_list 3 in
        assign (display (VStr COMMAND) (VStr tn) (VStr td) (VInt pl) (VInt pc))))).

(** specific processing for: update *)
Definition block_update (parsed_input : list string) : M unit :=
  let COMMAND := "update" in
  let! p1 := call (Py.index parsed_input 1) in
  when (String.eqb p1 COMMAND) (
    let! p2 := call (Py.index parsed_input 2) in
    let param_list := Py.split ":" p2 in
    when (length param_list =? 4)%nat (
      let! c := len_positive param_list 0 &&& in_percent_range param_list 3 in
      when c (
        let! has_pl := len_positive param_list 2 in
        if has_pl then
          let! valid_pl := in_priority_levels param_list 2 in
          when valid_pl (
            let! tn := call (Py.index param_list 0) in
            let! td := call (Py.index param_list 1) in
            let! pl := int_at param_list 2 in
            let! pc := int_at param_list 3 in
            assign (display (VStr COMMAND) (VStr tn) (VStr td) (VInt pl) (VInt pc)))
        else
          let! tn := call (Py.index param_list 0) in
          let! td := call (Py.index param_list 1) in
          let! pc := int_at param_list 3 in
          assign (display (VStr COMMAND) (VStr tn) (VStr td) (VStr "") (VInt pc))))).

(** specific processing for: suspend *)
Definition block_suspend (parsed_input : list string) : M unit :=
  let COMMAND := "suspend" in
  let! p1 := call (Py.index parsed_input 1) in
  when (String.eqb p1 COMMAND) (
    let! p2 := call (Py.index parsed_input 2) in
    let param_list := Py.split ":" p2 in
    when (length param_list =? 1)%nat (
      let! c := len_positive param_list 0 in
      when c (
        let! tn := call (Py.index param_list 0) in
        assign (display (VStr COMMAND) (VStr tn) (VStr "") (VStr "") (VStr ""))))).

(** specific processing for: abandon *)
Definition block_abandon (parsed_input : list string) : M unit :=
  let COMMAND := "abandon" in
  let! p1 := call (Py.index parsed_input 1) in
  when (String.eqb p1 COMMAND) (
    let! p2 := call (Py.index parsed_input 2) in
    let param_list := Py.split ":" p2 in
    when (length param_list =? 1)%nat (
      let! c := len_positive param_list 0 in
      when c (
        let! tn := call (Py.index param_list 0) in
        assign (display (VStr COMMAND) (VStr tn) (VStr "") (VStr "") (VStr ""))))).

(** The body of the [try]. *)
Definition try_body (input_line_of_text begins_with : string) : M dict :=
  let! parsed_input := call (Shlex.split input_line_of_text) in
  let! p0 := call (Py.index parsed_input 0) in
  when (String.eqb p0 begins_with) (
    block_create parsed_input >>
    block_update parsed_input >>
    block_suspend parsed_input >>
    block_abandon parsed_input) >>
  read_ret_dict.

(** The whole function: [ret_dict = {}], then the [try] whose handler
    is [return ret_dict]. *)
Definition slackbot_command_parse
    (input_line_of_text begins_with : string) : outcome dict :=
  let ret_dict : dict := ∅ in
  fst (try_except (try_body input_line_of_text begins_with) read_ret_dict ret_dict).


(** ** The function in closed form

    What the four blocks compute from the command word and the fields
    of the parameter token, written as one expression.  It is a device
    of the proofs: [parse_closed_form] below shows that the function
    above returns exactly this, and the properties are then read off
    it. *)

Definition is_level (n : Z) : bool := bool_decide (n ∈ priority_level_list).
Definition is_percent (n : Z) : bool := (0 <=? n)%Z && (n <? 101)%Z.

(** [int(s)] when it returns a number that passes [test]. *)
Definition checked_int (test : Z → bool) (s : string) : option Z :=
  match Py.int s with
  | Return n => if test n then Some n else None
  | Raise _ => None
  end.

Definition record_of (command : string) (param_list : list string) : dict :=
  if String.eqb command "create" then
    match param_list with
    | [tn; td; pl; pc] =>
        if Py.nonempty tn && Py.nonempty td then
          match checked_int is_level pl, checked_int is_percent pc with
          | Some n, Some m =>
              display (VStr command) (VStr tn) (VStr td) (VInt n) (VInt m)
          | _, _ => ∅
          end
        else ∅
    | _ => ∅
    end
  else if String.eqb command "update" then
    match param_list with
    | [tn; td; pl; pc] =>
        if Py.nonempty tn then
          match checked_int is_percent pc with
          | Some m =>
              if Py.nonempty pl then
                match checked_int is_level pl with
                | Some n =>
                    display (VStr command) (VStr tn) (VStr td) (VInt n) (VInt m)
                | None => ∅
                end
              else display (VStr command) (VStr tn) (VStr td) (VStr "") (VInt m)
          | None => ∅
          end
        else ∅
    | _ => ∅
    end
  else if String.eqb command "suspend" || String.eqb command "abandon" then
    match param_list with
    | [tn] =>
        if Py.nonempty tn
        then display (VStr command) (VStr tn) (VStr "") (VStr "") (VStr "")
        else ∅
    | _ => ∅
    end
  else ∅.

Definition closed_form (tokens : outcome (list string)) (begins_with : string) : dict :=
  match tokens with
  | Return (p0 :: p1 :: p2 :: _) =>
      if String.eqb p0 begins_with then record_of p1 (Py.split ":" p2) else ∅
  | _ => ∅
  end.

(** ** Vocabulary of the properties *)

(** The four command words. *)
Definition commands : list string := ["create"; "update"; "suspend"; "abandon"].

(** [c] occurs in [s]. *)
Fixpoint occurs (c : ascii) (s : string) : bool :=
  match s with
  | EmptyString => false
  | String c' s' => Ascii.eqb c' c || occurs c s'
  end.

(** The number of occurrences of [c] in [s]. *)
Fixpoint count (c : ascii) (s : string) : nat :=
  match s with
  | EmptyString => 0%nat
  | String c' s' => if Ascii.eqb c' c then S (count c s') else count c s'
  end.

(** The records that are valid for their command: the name is never
    empty; [create] has a description, a priority level and a
    percentage; [update] has a percentage, any description, and a
    priority level that is valid or left out; [suspend] and [abandon]
    carry the name alone. *)
Inductive valid_record : dict → Prop :=
  | valid_create tn td pl pc :
      tn ≠ "" → td ≠ "" → pl ∈ priority_level_list → (0 ≤ pc ≤ 100)%Z →
      valid_record (display (VStr "create") (VStr tn) (VStr td) (VInt pl) (VInt pc))
  | valid_update tn td pl pc :
      tn ≠ "" → pl ∈ priority_level_list → (0 ≤ pc ≤ 100)%Z →
      valid_record (display (VStr "update") (VStr tn) (VStr td) (VInt pl) (VInt pc))
  | valid_update_no_level tn td pc :
      tn ≠ "" → (0 ≤ pc ≤ 100)%Z →
      valid_record (display (VStr "update") (VStr tn) (VStr td) (VStr "") (VInt pc))
  | valid_suspend tn :
      tn ≠ "" →
      valid_record (display (VStr "suspend") (VStr tn) (VStr "") (VStr "") (VStr ""))
  | valid_abandon tn :
      tn ≠ "" →
      valid_record (display (VStr "abandon") (VStr tn) (VStr "") (VStr "") (VStr "")).

(** What each block accepts: the command word, the fields of the
    parameter token and the dictionary assigned to [ret_dict]. *)
Inductive accepts : string → list string → dict → Prop :=
  | accepts_create tn td pl pc n m :
      tn ≠ "" → td ≠ "" →
      Py.int pl = Return n → n ∈ priority_level_list →
      Py.int pc = Return m → (0 ≤ m ≤ 100)%Z →
      accepts "create" [tn; td; pl; pc]
        (display (VStr "create") (VStr tn) (VStr td) (VInt n) (VInt m))
  | accepts_update tn td pl pc n m :
      tn ≠ "" → pl ≠ "" →
      Py.int pl = Return n → n ∈ priority_level_list →
      Py.int pc = Return m → (0 ≤ m ≤ 100)%Z →
      accepts "update" [tn; td; pl; pc]
        (display (VStr "update") (VStr tn) (VStr td) (VInt n) (VInt m))
  | accepts_update_no_level tn td pc m :
      tn ≠ "" →
      Py.int pc = Return m → (0 ≤ m ≤ 100)%Z →
      accepts "update" [tn; td; ""; pc]
        (display (VStr "update") (VStr tn) (VStr td) (VStr "") (VInt m))
  | accepts_suspend tn :
      tn ≠ "" →
      accepts "suspend" [tn]
        (display (VStr "suspend") (VStr tn) (VStr "") (VStr "") (VStr ""))
  | accepts_abandon tn :
      tn ≠ "" →
      accepts "abandon" [tn]
        (display (VStr "abandon") (VStr tn) (VStr "") (VStr "") (VStr "")).


(** ** The demonstration driver

    The [__main__] block parses two lists of sample lines with the
    default prefix and prints each line with its result. *)






(** ** Vocabulary of the lexer's properties *)

(** Every character of [s] passes [test]. *)
Fixpoint all_chars (test : ascii → bool) (s : string) : bool :=
  match s with
  | EmptyString => true
  | String c s' => test c && all_chars test s'
  end.

(** A character the lexer takes as it is: no white space, no quote,
    no backslash. *)
Definition plain (c : ascii) : bool :=
  negb (Shlex.whitespace c || Shlex.quotes c || Shlex.escape c).

(** A character that opens no quoting: no quote, no backslash. *)
Definition unquoting (c : ascii) : bool :=
  negb (Shlex.quotes c || Shlex.escape c).

(** [sep.join(fields)] for a separator of one character. *)
Fixpoint join (sep : ascii) (fields : list string) : string :=
  match fields with
  | [] => EmptyString
  | [f] => f
  | f :: fs => f ++ String sep (join sep fs)
  end.

(** The five keys of a record. *)
Definition columns : gset string :=
  {[ col_command; col_taskname; col_taskdesc; col_priolevel; col_percent ]}.

(** * Properties *)

(** ** The built-ins on examples *)

Example split_fields :
  Py.split ":" "myTaskA:plain vanilla task:1:10"
  = ["myTaskA"; "plain vanilla task"; "1"; "10"].
Proof. reflexivity. Qed.

Example split_trailing : Py.split ":" "myTaskB:::" = ["myTaskB"; ""; ""; ""].
Proof. reflexivity. Qed.

Example split_empty : Py.split ":" "" = [""].
Proof. reflexivity. Qed.

Example int_plain : Py.int "40" = Return 40.
Proof. reflexivity. Qed.

Example int_padded : Py.int " -0_7 " = Return (-7).
Proof. reflexivity. Qed.

Example int_empty : Py.int "" = Raise ValueError.
Proof. reflexivity. Qed.

Example int_word : Py.int "uhuh" = Raise ValueError.
Proof. reflexivity. Qed.

Example int_underscore : Py.int "1__0" = Raise ValueError.
Proof. reflexivity. Qed.

(** The separators 28 to 31 are white space for [str.isspace], not
    for [int]. *)
Example int_separator : Py.int (String "028" "1") = Raise ValueError.
Proof. reflexivity. Qed.

(** A no-break space (U+00A0) in front, a form feed behind. *)
Example int_unicode_space :
  Py.int (String "194" (String "160" (String "1" (String "012" ""))))
  = Return 1.
Proof. reflexivity. Qed.

(** FULLWIDTH DIGIT ONE (U+FF11) and ARABIC-INDIC DIGIT TWO (U+0662). *)
Example int_unicode_digits :
  Py.int (String "239" (String "188" (String "145"
           (String "217" (String "162" "")))))
  = Return 12.
Proof. reflexivity. Qed.

(** SUPERSCRIPT TWO (U+00B2) is a digit for [str.isdigit], not a
    decimal digit. *)
Example int_superscript :
  Py.int (String "194" (String "178" "")) = Raise ValueError.
Proof. reflexivity. Qed.

(** 4300 digits are read, one more is refused. *)
Example int_max_str_digits :
  Py.int (String.concat "" (repeat "0" 4300)) = Return 0
  ∧ Py.int (String.concat "" (repeat "0" 4301)) = Raise ValueError.
Proof. split; vm_compute; reflexivity. Qed.

(** ** The closed form *)

Lemma nonempty_true s : Py.nonempty s = true ↔ s ≠ "".
Proof. destruct s; simpl; split; congruence. Qed.

Lemma nonempty_false s : Py.nonempty s = false ↔ s = "".
Proof. destruct s; simpl; split; congruence. Qed.

Lemma is_level_true n : is_level n = true ↔ n ∈ priority_level_list.
Proof. unfold is_level. rewrite bool_decide_eq_true. done. Qed.

Lemma is_percent_true n : is_percent n = true ↔ (0 ≤ n ≤ 100)%Z.
Proof. unfold is_percent. rewrite andb_true_iff, Z.leb_le, Z.ltb_lt. lia. Qed.

Lemma checked_int_Some test s n :
  checked_int test s = Some n ↔ Py.int s = Return n ∧ test n = true.
Proof.
  unfold checked_int. destruct (Py.int s) as [k|e]; [destruct (test k) eqn:E|];
    split; try (intros [? ?]); try intros ?; simplify_eq; try done.
  congruence.
Qed.

Lemma checked_int_None test s :
  checked_int test s = None ↔ ∀ n, Py.int s = Return n → test n = false.
Proof.
  unfold checked_int. destruct (Py.int s) as [k|e].
  - destruct (test k) eqn:E; split; try done.
    + intros H. specialize (H k eq_refl). congruence.
    + intros _ n [= <-]. done.
  - split; done.
Qed.

Ltac run :=
  unfold slackbot_command_parse, try_except, try_body, block_create,
    block_update, block_suspend, block_abandon, when, and_then, len_positive,
    in_priority_levels, in_percent_range, int_at, bind, ret, call, assign,
    read_ret_dict; simpl.

Lemma parse_closed_form line prefix :
  slackbot_command_parse line prefix
  = Return (closed_form (Shlex.split line) prefix).
Proof.
  unfold closed_form. run.
  destruct (Shlex.split line) as [[|p0 [|p1 [|p2 rest]]]|e]; simpl; try done.
  - destruct (String.eqb p0 prefix); done.
  - destruct (String.eqb p0 prefix); [|done]. simpl.
    destruct (String.eqb_spec p1 "create") as [->|?]; [done|].
    destruct (String.eqb_spec p1 "update") as [->|?]; [done|].
    destruct (String.eqb_spec p1 "suspend") as [->|?]; [done|].
    destruct (String.eqb_spec p1 "abandon") as [->|?]; done.
  - destruct (String.eqb p0 prefix); [|done]. unfold record_of, checked_int, is_level, is_percent.
    generalize (Py.split ":" p2). intros fields.
    destruct (String.eqb_spec p1 "create") as [->|_].
    { destruct fields as [|tn [|td [|pl [|pc [|? ?]]]]]; simpl; try done.
      destruct (Py.nonempty tn); simpl; [|done].
      destruct (Py.nonempty td); simpl; [|done].
      destruct (Py.int pl) as [n|?]; simpl; [|done].
      destruct (bool_decide (n ∈ priority_level_list)); simpl;
        destruct (Py.int pc) as [m|?]; simpl; try done.
      destruct (0 <=? m)%Z, (m <? 101)%Z; simpl; done. }
    destruct (String.eqb_spec p1 "update") as [->|_].
    { destruct fields as [|tn [|td [|pl [|pc [|? ?]]]]]; simpl; try done.
      destruct (Py.nonempty tn); simpl; [|done].
      destruct (Py.int pc) as [m|?]; simpl; [|done].
      destruct ((0 <=? m)%Z && (m <? 101)%Z); simpl; [|done].
      destruct (Py.nonempty pl); simpl; [|done].
      destruct (Py.int pl) as [n|?]; simpl; [|done].
      destruct (bool_decide (n ∈ priority_level_list)); simpl; done. }
    destruct (String.eqb_spec p1 "suspend") as [->|_].
    { destruct fields as [|tn [|? ?]]; simpl; try done.
      destruct (Py.nonempty tn); simpl; done. }
    destruct (String.eqb_spec p1 "abandon") as [->|_].
    { destruct fields as [|tn [|? ?]]; simpl; try done.
      destruct (Py.nonempty tn); simpl; done. }
    done.
Qed.

(** ** Dictionaries *)

Lemma display_nonempty c tn td pl pc : display c tn td pl pc ≠ ∅.
Proof. unfold display. apply insert_non_empty. Qed.

Lemma display_command c tn td pl pc : display c tn td pl pc !! col_command = Some c.
Proof. reflexivity. Qed.

Lemma display_taskname c tn td pl pc : display c tn td pl pc !! col_taskname = Some tn.
Proof. reflexivity. Qed.

Lemma display_taskdesc c tn td pl pc : display c tn td pl pc !! col_taskdesc = Some td.
Proof. reflexivity. Qed.

Lemma display_priolevel c tn td pl pc : display c tn td pl pc !! col_priolevel = Some pl.
Proof. reflexivity. Qed.

Lemma display_percent c tn td pl pc : display c tn td pl pc !! col_percent = Some pc.
Proof. reflexivity. Qed.

Lemma display_inj c tn td pl pc c' tn' td' pl' pc' :
  display c tn td pl pc = display c' tn' td' pl' pc' →
  c = c' ∧ tn = tn' ∧ td = td' ∧ pl = pl' ∧ pc = pc'.
Proof.
  intros E.
  pose proof (f_equal (.!! col_command) E) as H1.
  pose proof (f_equal (.!! col_taskname) E) as H2.
  pose proof (f_equal (.!! col_taskdesc) E) as H3.
  pose proof (f_equal (.!! col_priolevel) E) as H4.
  pose proof (f_equal (.!! col_percent) E) as H5.
  rewrite !display_command in H1. rewrite !display_taskname in H2.
  rewrite !display_taskdesc in H3. rewrite !display_priolevel in H4.
  rewrite !display_percent in H5. by simplify_eq.
Qed.

(** ** What the blocks accept *)

Lemma record_of_accepts command fields d :
  accepts command fields d → record_of command fields = d.
Proof.
  destruct 1; unfold record_of; simpl;
    repeat match goal with
    | H : ?s ≠ "" |- _ => apply nonempty_true in H; rewrite H; clear H
    end; simpl;
    repeat match goal with
    | |- context [checked_int is_level ?s] =>
        replace (checked_int is_level s) with (Some n)
          by (symmetry; apply checked_int_Some; split; [done | by apply is_level_true])
    | |- context [checked_int is_percent ?s] =>
        replace (checked_int is_percent s) with (Some m)
          by (symmetry; apply checked_int_Some; split; [done | by apply is_percent_true])
    end; done.
Qed.

Lemma record_of_inv command fields :
  record_of command fields = ∅ ∨ accepts command fields (record_of command fields).
Proof.
  unfold record_of.
  destruct (String.eqb_spec command "create") as [->|_].
  { destruct fields as [|tn [|td [|pl [|pc [|? ?]]]]]; auto.
    destruct (Py.nonempty tn) eqn:Htn; simpl; auto.
    destruct (Py.nonempty td) eqn:Htd; simpl; auto.
    destruct (checked_int is_level pl) as [n|] eqn:Hpl; auto.
    destruct (checked_int is_percent pc) as [m|] eqn:Hpc; auto.
    apply checked_int_Some in Hpl as [? ?%is_level_true].
    apply checked_int_Some in Hpc as [? ?%is_percent_true].
    right. eapply accepts_create; try done; by apply nonempty_true. }
  destruct (String.eqb_spec command "update") as [->|_].
  { destruct fields as [|tn [|td [|pl [|pc [|? ?]]]]]; auto.
    destruct (Py.nonempty tn) eqn:Htn; simpl; auto.
    destruct (checked_int is_percent pc) as [m|] eqn:Hpc; auto.
    apply checked_int_Some in Hpc as [? ?%is_percent_true].
    destruct (Py.nonempty pl) eqn:Hpl'.
    - destruct (checked_int is_level pl) as [n|] eqn:Hpl; auto.
      apply checked_int_Some in Hpl as [? ?%is_level_true].
      right. eapply accepts_update; try done; by apply nonempty_true.
    - apply nonempty_false in Hpl' as ->.
      right. apply accepts_update_no_level; try done. by apply nonempty_true. }
  destruct (String.eqb_spec command "suspend") as [->|_].
  { destruct fields as [|tn [|? ?]]; simpl; auto.
    destruct (Py.nonempty tn) eqn:Htn; auto.
    right. constructor. by apply nonempty_true. }
  destruct (String.eqb_spec command "abandon") as [->|_]; simpl; auto.
  destruct fields as [|tn [|? ?]]; simpl; auto.
  destruct (Py.nonempty tn) eqn:Htn; auto.
  right. constructor. by apply nonempty_true.
Qed.

Lemma accepts_valid command fields d : accepts command fields d → valid_record d.
Proof.
  destruct 1.
  - by apply valid_create.
  - by apply valid_update.
  - by apply valid_update_no_level.
  - by apply valid_suspend.
  - by apply valid_abandon.
Qed.

(** The function read through its tokens. *)
Lemma parse_tokens line prefix p0 p1 p2 rest :
  Shlex.split line = Return (p0 :: p1 :: p2 :: rest) →
  slackbot_command_parse line prefix
  = Return (if String.eqb p0 prefix then record_of p1 (Py.split ":" p2) else ∅).
Proof. intros H. rewrite parse_closed_form, H. done. Qed.

Lemma parse_inv line prefix d :
  slackbot_command_parse line prefix = Return d →
  d = ∅ ∨
  ∃ command param rest,
    Shlex.split line = Return (prefix :: command :: param :: rest) ∧
    accepts command (Py.split ":" param) d.
Proof.
  rewrite parse_closed_form. intros [= <-]. unfold closed_form.
  destruct (Shlex.split line) as [[|p0 [|p1 [|p2 rest]]]|e]; auto.
  destruct (String.eqb_spec p0 prefix) as [->|_]; auto.
  destruct (record_of_inv p1 (Py.split ":" p2)) as [->|H]; auto.
  right. eauto.
Qed.

(** ** Fields of [str.split] *)

Lemma split_nonnil sep s : Py.split sep s ≠ [].
Proof. destruct s as [|c s]; simpl; [done|]. by repeat case_match. Qed.

Lemma split_length sep s : length (Py.split sep s) = S (count sep s).
Proof.
  induction s as [|c s IH]; simpl; [done|].
  destruct (Ascii.eqb c sep); simpl; [by rewrite IH|].
  destruct (Py.split sep s); simpl in *; done.
Qed.





(** An unknown command word assigns nothing. *)
Lemma record_of_unknown command fields :
  command ∉ commands → record_of command fields = ∅.
Proof.
  intros Hc. unfold record_of.
  destruct (String.eqb_spec command "create") as [->|_].
  { exfalso. apply Hc. unfold commands. set_solver. }
  destruct (String.eqb_spec command "update") as [->|_].
  { exfalso. apply Hc. unfold commands. set_solver. }
  destruct (String.eqb_spec command "suspend") as [->|_].
  { exfalso. apply Hc. unfold commands. set_solver. }
  destruct (String.eqb_spec command "abandon") as [->|_]; [|done].
  exfalso. apply Hc. unfold commands. set_solver.
Qed.

(** ** The parser *)

(** C1.  Whatever the line, the parser returns the empty dictionary or
    a record that is valid for its command: a non-empty task name; for
    [create] a non-empty description, a priority level among 0, 1, 2
    and a percentage from 0 to 100; for [update] a percentage from 0
    to 100 and a priority level that is left out or among 0, 1, 2; for
    [suspend] and [abandon] the name alone.  Nothing in between is
    returned. *)
Theorem parse_empty_or_valid line prefix :
  ∃ d, slackbot_command_parse line prefix = Return d ∧ (d = ∅ ∨ valid_record d).
Proof.
  exists (closed_form (Shlex.split line) prefix). split.
  - apply parse_closed_form.
  - destruct (parse_inv line prefix _ (parse_closed_form line prefix))
      as [->|(command & param & rest & _ & Hacc)]; [by left|].
    right. by eapply accepts_valid.
Qed.

(** C2.  The parser never raises: on every line, with every prefix,
    the call comes back with a dictionary. *)
Theorem parse_always_returns line prefix :
  ∃ d, slackbot_command_parse line prefix = Return d.
Proof.
  unfold slackbot_command_parse, try_except, read_ret_dict.
  destruct (try_body line prefix ∅) as [[d|e] ret_dict]; simpl; eauto.
Qed.

(** C3.  On a line whose tokens start with the prefix, [create] and a
    parameter token: when the token has exactly four fields, a
    non-empty name, a non-empty description, a priority level that
    reads as an integer among 0, 1, 2 and a percentage that reads as
    an integer from 0 to 100, the parser returns the [create] record
    with these four values, the two numbers as integers; when the
    field count is not four, or the name or the description is empty,
    or a number does not read as an integer or is out of range, it
    returns the empty dictionary. *)
Theorem create_record_or_empty line prefix param rest :
  Shlex.split line = Return (prefix :: "create" :: param :: rest) →
  let fields := Py.split ":" param in
  (∀ tn td pl pc n m,
     fields = [tn; td; pl; pc] → tn ≠ "" → td ≠ "" →
     Py.int pl = Return n → n ∈ priority_level_list →
     Py.int pc = Return m → (0 ≤ m ≤ 100)%Z →
     slackbot_command_parse line prefix
     = Return (display (VStr "create") (VStr tn) (VStr td) (VInt n) (VInt m)))
  ∧ (length fields ≠ 4%nat
     ∨ fields !! 0%nat = Some ""
     ∨ fields !! 1%nat = Some ""
     ∨ (∃ pl, fields !! 2%nat = Some pl
              ∧ ∀ n, Py.int pl = Return n → n ∉ priority_level_list)
     ∨ (∃ pc, fields !! 3%nat = Some pc
              ∧ ∀ m, Py.int pc = Return m → ¬ (0 ≤ m ≤ 100)%Z) →
     slackbot_command_parse line prefix = Return ∅).
Proof.
  intros Htok fields. rewrite (parse_tokens _ _ _ _ _ _ Htok), String.eqb_refl.
  fold fields. split.
  - intros tn td pl pc n m -> ? ? ? ? ? ?. f_equal.
    apply record_of_accepts. by apply accepts_create.
  - intros Hbad. f_equal. unfold record_of. simpl.
    destruct fields as [|tn [|td [|pl [|pc [|? ?]]]]]; try done.
    destruct Hbad as [Hlen|[Htn|[Htd|[(s & Hs & Hpl)|(s & Hs & Hpc)]]]];
      simpl in *; simplify_eq; simpl.
    + done.
    + by rewrite andb_false_r.
    + replace (checked_int is_level s) with (@None Z).
      { by destruct (_ && _). }
      symmetry. apply checked_int_None. intros n Hn.
      apply not_true_is_false. rewrite is_level_true. by apply Hpl.
    + replace (checked_int is_percent s) with (@None Z).
      { destruct (_ && _); [|done]. by destruct (checked_int is_level pl). }
      symmetry. apply checked_int_None. intros m Hm.
      apply not_true_is_false. rewrite is_percent_true. by apply Hpc.
Qed.

Lemma create_record_or_empty_witness :
  slackbot_command_parse "/slackbot create myTaskA:'plain vanilla task':1:10" "/slackbot"
  = Return (display (VStr "create") (VStr "myTaskA") (VStr "plain vanilla task")
              (VInt 1) (VInt 10)).
Proof.
  apply (proj1 (create_record_or_empty
    "/slackbot create myTaskA:'plain vanilla task':1:10" "/slackbot"
    "myTaskA:plain vanilla task:1:10" [] eq_refl)
    "myTaskA" "plain vanilla task" "1" "10" 1 10);
    try reflexivity; try done.
  unfold priority_level_list. set_solver.
Defined.

(** C4.  On an [update] line whose parameter token has exactly four
    fields, a non-empty name and a percentage that reads as an integer
    from 0 to 100: with an empty priority field the parser returns the
    record with the priority level left out and the description as
    written, empty or not; with a non-empty priority field it returns
    the record with that level when the field reads as an integer
    among 0, 1, 2, and the empty dictionary otherwise. *)
Theorem update_optional_priority line prefix param rest tn td pl pc m :
  Shlex.split line = Return (prefix :: "update" :: param :: rest) →
  Py.split ":" param = [tn; td; pl; pc] →
  tn ≠ "" → Py.int pc = Return m → (0 ≤ m ≤ 100)%Z →
  (pl = "" →
     slackbot_command_parse line prefix
     = Return (display (VStr "update") (VStr tn) (VStr td) (VStr "") (VInt m)))
  ∧ (pl ≠ "" →
     (∀ n, Py.int pl = Return n → n ∈ priority_level_list →
        slackbot_command_parse line prefix
        = Return (display (VStr "update") (VStr tn) (VStr td) (VInt n) (VInt m)))
     ∧ ((∀ n, Py.int pl = Return n → n ∉ priority_level_list) →
        slackbot_command_parse line prefix = Return ∅)).
Proof.
  intros Htok Hfields Htn Hpc Hm.
  rewrite (parse_tokens _ _ _ _ _ _ Htok), String.eqb_refl, Hfields.
  split; [|intros Hpl; split].
  - intros ->. f_equal. apply record_of_accepts.
    by apply accepts_update_no_level.
  - intros n Hn Hlevel. f_equal. apply record_of_accepts.
    by apply accepts_update.
  - intros Hbad. f_equal. unfold record_of. simpl.
    replace (checked_int is_level pl) with (@None Z).
    { destruct (Py.nonempty tn); [|done].
      destruct (checked_int is_percent pc); [|done].
      apply nonempty_true in Hpl. by rewrite Hpl. }
    symmetry. apply checked_int_None. intros n Hn.
    apply not_true_is_false. rewrite is_level_true. by apply Hbad.
Qed.

Lemma update_optional_priority_witness :
  slackbot_command_parse "/slackbot update myTaskA:::40" "/slackbot"
  = Return (display (VStr "update") (VStr "myTaskA") (VStr "") (VStr "") (VInt 40)).
Proof.
  apply (proj1 (update_optional_priority
    "/slackbot update myTaskA:::40" "/slackbot" "myTaskA:::40" []
    "myTaskA" "" "" "40" 40 eq_refl eq_refl ltac:(done) eq_refl ltac:(lia))).
  reflexivity.
Defined.

(** C5.  On a [suspend] or [abandon] line the parser returns a record
    exactly when the parameter token is one field — no colon in it —
    and that field, the task name, is not empty; the record carries
    the command and the name, and the empty string for the
    description, the priority level and the percentage.  With more
    fields or an empty name it returns the empty dictionary. *)
Theorem suspend_abandon_single_field line prefix command param rest :
  command = "suspend" ∨ command = "abandon" →
  Shlex.split line = Return (prefix :: command :: param :: rest) →
  let fields := Py.split ":" param in
  (∀ tn, fields = [tn] → tn ≠ "" →
     slackbot_command_parse line prefix
     = Return (display (VStr command) (VStr tn) (VStr "") (VStr "") (VStr "")))
  ∧ (length fields ≠ 1%nat ∨ fields = [""] →
     slackbot_command_parse line prefix = Return ∅)
  ∧ (slackbot_command_parse line prefix ≠ Return ∅ ↔
     ∃ tn, fields = [tn] ∧ tn ≠ "").
Proof.
  intros Hcmd Htok fields.
  rewrite (parse_tokens _ _ _ _ _ _ Htok), String.eqb_refl. fold fields.
  assert (Hrec : ∀ tn, fields = [tn] → tn ≠ "" →
            record_of command fields
            = display (VStr command) (VStr tn) (VStr "") (VStr "") (VStr "")).
  { intros tn -> Htn. apply record_of_accepts.
    destruct Hcmd as [->| ->]; [by apply accepts_suspend | by apply accepts_abandon]. }
  assert (Hempty : length fields ≠ 1%nat ∨ fields = [""] →
            record_of command fields = ∅).
  { intros Hbad. unfold record_of.
    destruct Hcmd as [->| ->]; simpl;
      destruct fields as [|tn [|? ?]]; try done;
      destruct Hbad as [?|?]; simplify_eq; done. }
  split; [|split].
  - intros tn Hf Htn. f_equal. by apply Hrec.
  - intros Hbad. f_equal. by apply Hempty.
  - split.
    + intros Hne. destruct fields as [|tn [|? ?]] eqn:Hf.
      * exfalso. apply Hne. f_equal. apply Hempty. by left.
      * destruct (decide (tn = "")) as [->|Htn]; [|eauto].
        exfalso. apply Hne. f_equal. apply Hempty. by right.
      * exfalso. apply Hne. f_equal. apply Hempty. by left.
    + intros (tn & Hf & Htn) [= Heq]. rewrite (Hrec tn Hf Htn) in Heq.
      by apply display_nonempty in Heq.
Qed.

Lemma suspend_abandon_single_field_witness :
  slackbot_command_parse "/slackbot suspend myTaskB" "/slackbot"
  = Return (display (VStr "suspend") (VStr "myTaskB") (VStr "") (VStr "") (VStr ""))
  ∧ slackbot_command_parse "/slackbot abandon myTaskC:::" "/slackbot" = Return ∅.
Proof.
  split.
  - apply (proj1 (suspend_abandon_single_field
      "/slackbot suspend myTaskB" "/slackbot" "suspend" "myTaskB" []
      (or_introl eq_refl) eq_refl) "myTaskB"); [reflexivity | done].
  - apply (proj1 (proj2 (suspend_abandon_single_field
      "/slackbot abandon myTaskC:::" "/slackbot" "abandon" "myTaskC:::" []
      (or_intror eq_refl) eq_refl))).
    left. simpl. lia.
Defined.




(** C7.  When the tokenization of the line fails, and when it gives
    fewer than three tokens, the parser returns the empty
    dictionary. *)
Theorem failed_or_short_tokenization_is_empty line prefix :
  (∃ e, Shlex.split line = Raise e)
  ∨ (∃ tokens, Shlex.split line = Return tokens ∧ (length tokens < 3)%nat) →
  slackbot_command_parse line prefix = Return ∅.
Proof.
  intros H. rewrite parse_closed_form. f_equal. unfold closed_form.
  destruct H as [[e ->]|(tokens & -> & Hlen)]; [done|].
  destruct tokens as [|? [|? [|? ?]]]; simpl in Hlen; try done; lia.
Qed.

Lemma failed_or_short_tokenization_is_empty_witness :
  slackbot_command_parse "/slackbot create myTaskA:'plain vanilla task" "/slackbot"
  = Return ∅
  ∧ slackbot_command_parse "/slackbot create" "/slackbot" = Return ∅.
Proof.
  split.
  - apply failed_or_short_tokenization_is_empty. left.
    exists ValueError. reflexivity.
  - apply failed_or_short_tokenization_is_empty. right.
    exists ["/slackbot"; "create"]. split; [reflexivity | simpl; lia].
Defined.

(** C8.  When the first token is not the prefix itself, or the second
    token is not one of the four command words themselves, the parser
    returns the empty dictionary. *)
Theorem wrong_prefix_or_command_is_empty line prefix tokens :
  Shlex.split line = Return tokens →
  tokens !! 0%nat ≠ Some prefix
  ∨ (∀ command, command ∈ commands → tokens !! 1%nat ≠ Some command) →
  slackbot_command_parse line prefix = Return ∅.
Proof.
  intros Htok Hbad. rewrite parse_closed_form, Htok. f_equal. unfold closed_form.
  destruct tokens as [|p0 [|p1 [|p2 rest]]]; try done.
  destruct (String.eqb_spec p0 prefix) as [->|Hp0]; [|done].
  destruct Hbad as [Hbad|Hbad]; [done|].
  apply record_of_unknown. intros Hin. by apply (Hbad p1).
Qed.

Lemma wrong_prefix_or_command_is_empty_witness :
  slackbot_command_parse "/slackbott create myTaskA:'plain vanilla task':1:10"
    "/slackbot" = Return ∅
  ∧ slackbot_command_parse "/slackbot createmyTaskA:'plain vanilla task':1:10 x"
      "/slackbot" = Return ∅.
Proof.
  split.
  - apply (wrong_prefix_or_command_is_empty
             "/slackbott create myTaskA:'plain vanilla task':1:10" "/slackbot"
             ["/slackbott"; "create"; "myTaskA:plain vanilla task:1:10"] eq_refl).
    left. done.
  - apply (wrong_prefix_or_command_is_empty
             "/slackbot createmyTaskA:'plain vanilla task':1:10 x" "/slackbot"
             ["/slackbot"; "createmyTaskA:plain vanilla task:1:10"; "x"] eq_refl).
    right. intros command Hc. unfold commands in Hc.
    repeat (apply elem_of_cons in Hc as [->|Hc]; [done|]).
    by apply elem_of_nil in Hc.
Defined.

(** C9.  The result depends on the first three tokens alone: two lines
    whose token sequences agree at positions 0, 1 and 2 parse to the
    same result, so a fourth token is dropped and never rejects a line
    by itself. *)
Theorem only_first_three_tokens line1 line2 prefix tokens1 tokens2 :
  Shlex.split line1 = Return tokens1 →
  Shlex.split line2 = Return tokens2 →
  (∀ i, (i < 3)%nat → tokens1 !! i = tokens2 !! i) →
  slackbot_command_parse line1 prefix = slackbot_command_parse line2 prefix.
Proof.
  intros H1 H2 Hagree. rewrite !parse_closed_form, H1, H2. f_equal.
  pose proof (Hagree 0%nat ltac:(lia)) as E0.
  pose proof (Hagree 1%nat ltac:(lia)) as E1.
  pose proof (Hagree 2%nat ltac:(lia)) as E2.
  unfold closed_form.
  destruct tokens1 as [|a0 [|a1 [|a2 r1]]], tokens2 as [|b0 [|b1 [|b2 r2]]];
    simpl in *; simplify_eq; done.
Qed.

Lemma only_first_three_tokens_witness :
  slackbot_command_parse "/slackbot abandon myTaskC and more" "/slackbot"
  = slackbot_command_parse "/slackbot abandon myTaskC" "/slackbot".
Proof.
  apply (only_first_three_tokens
           "/slackbot abandon myTaskC and more" "/slackbot abandon myTaskC"
           "/slackbot"
           ["/slackbot"; "abandon"; "myTaskC"; "and"; "more"]
           ["/slackbot"; "abandon"; "myTaskC"] eq_refl eq_refl).
  intros [|[|[|i]]] Hi; try reflexivity. lia.
Defined.



(** * Further properties of the code *)

(** ** Splitting into fields *)

(** X1.  Joining the fields of [s.split(':')] with colons gives [s]
    back, and a token with [k] colons has [k + 1] fields: at least
    one, so that [param_list[0]] never raises. *)
Theorem split_join sep s :
  join sep (Py.split sep s) = s
  ∧ length (Py.split sep s) = S (count sep s).
Proof.
  split; [|apply split_length].
  induction s as [|c s IH]; simpl; [done|].
  destruct (Ascii.eqb_spec c sep) as [->|Hc].
  - pose proof (split_nonnil sep s) as Hne.
    destruct (Py.split sep s) as [|f fs] eqn:E; [done|].
    change (join sep ("" :: f :: fs)) with (String sep (join sep (f :: fs))).
    by rewrite IH.
  - destruct (Py.split sep s) as [|f fs] eqn:E.
    + by destruct (split_nonnil sep s).
    + destruct fs as [|g gs]; simpl in *; by rewrite <- IH.
Qed.

(** A string without the separator is its own single field. *)
Lemma split_single sep s : occurs sep s = false → Py.split sep s = [s].
Proof.
  induction s as [|c s IH]; simpl; [done|].
  destruct (Ascii.eqb c sep); simpl; [done|].
  intros H. by rewrite (IH H).
Qed.


(** ** The shape of a record *)

Lemma display_dom c tn td pl pc : dom (display c tn td pl pc) = columns.
Proof.
  unfold display, columns. rewrite !dom_insert_L, dom_empty_L. set_solver.
Qed.

(** X2.  The dictionary of the docstring: a result that is not empty
    has exactly the five keys; the values of ['Command'], ['Task Name']
    and ['Task Description'] are strings, those of ['Priority Level']
    and ['Percent Completion'] integers or empty strings. *)
Theorem record_keys_and_types line prefix d :
  slackbot_command_parse line prefix = Return d → d ≠ ∅ →
  dom d = columns
  ∧ (∃ command tn td,
       d !! col_command = Some (VStr command)
       ∧ d !! col_taskname = Some (VStr tn)
       ∧ d !! col_taskdesc = Some (VStr td))
  ∧ (d !! col_priolevel = Some (VStr "") ∨ ∃ n, d !! col_priolevel = Some (VInt n))
  ∧ (d !! col_percent = Some (VStr "") ∨ ∃ m, d !! col_percent = Some (VInt m)).
Proof.
  intros Hparse Hne.
  destruct (parse_inv _ _ _ Hparse) as [->|(command & param & rest & _ & Hacc)];
    [done|].
  destruct Hacc;
    rewrite display_dom, display_command, display_taskname, display_taskdesc,
      display_priolevel, display_percent;
    (split; [reflexivity|]);
    (split; [by eexists _, _, _|]); split; eauto.
Qed.

Lemma record_keys_and_types_witness :
  dom (display (VStr "suspend") (VStr "myTaskB") (VStr "") (VStr "") (VStr ""))
  = columns.
Proof.
  apply (record_keys_and_types "/slackbot suspend myTaskB" "/slackbot").
  - reflexivity.
  - apply display_nonempty.
Defined.

(** X3.  A record takes its command and its fields from the line as
    they stand: the command is the second token, one of the four
    words; the task name is the first field of the third token and
    the description, for [create] and [update], its second field. *)
Theorem record_provenance line prefix d :
  slackbot_command_parse line prefix = Return d → d ≠ ∅ →
  ∃ command param rest,
    Shlex.split line = Return (prefix :: command :: param :: rest)
    ∧ command ∈ commands
    ∧ d !! col_command = Some (VStr command)
    ∧ VStr <$> Py.split ":" param !! 0%nat = d !! col_taskname
    ∧ (command = "create" ∨ command = "update" →
       VStr <$> Py.split ":" param !! 1%nat = d !! col_taskdesc).
Proof.
  intros Hparse Hne.
  destruct (parse_inv _ _ _ Hparse) as [->|(command & param & rest & Htok & Hacc)];
    [done|].
  exists command, param, rest. split; [done|].
  revert Hacc. generalize (Py.split ":" param). intros fields Hacc.
  destruct Hacc;
    rewrite display_command, display_taskname, display_taskdesc;
    (split; [unfold commands; repeat constructor|]); repeat split; try done;
    intros [?|?]; done.
Qed.

Lemma record_provenance_witness :
  ∃ command param rest,
    Shlex.split "/slackbot update myTaskA::0:40"
    = Return ("/slackbot" :: command :: param :: rest)
    ∧ command ∈ commands
    ∧ display (VStr "update") (VStr "myTaskA") (VStr "") (VInt 0) (VInt 40)
        !! col_command = Some (VStr command)
    ∧ VStr <$> Py.split ":" param !! 0%nat
      = display (VStr "update") (VStr "myTaskA") (VStr "") (VInt 0) (VInt 40)
          !! col_taskname
    ∧ (command = "create" ∨ command = "update" →
       VStr <$> Py.split ":" param !! 1%nat
       = display (VStr "update") (VStr "myTaskA") (VStr "") (VInt 0) (VInt 40)
           !! col_taskdesc).
Proof.
  apply (record_provenance "/slackbot update myTaskA::0:40" "/slackbot").
  - reflexivity.
  - apply display_nonempty.
Defined.

(** ** The prefix, the numbers, the exceptions *)

(** X4.  The prefix matters through one comparison only: two lines
    whose first tokens are the prefixes they are parsed with, and
    whose further tokens are the same, give the same result.  The
    default ['/slackbot'] has no role of its own. *)
Theorem prefix_is_a_parameter line1 line2 prefix1 prefix2 tokens :
  Shlex.split line1 = Return (prefix1 :: tokens) →
  Shlex.split line2 = Return (prefix2 :: tokens) →
  slackbot_command_parse line1 prefix1 = slackbot_command_parse line2 prefix2.
Proof.
  intros H1 H2. rewrite !parse_closed_form, H1, H2. unfold closed_form.
  destruct tokens as [|p1 [|p2 rest]]; try done.
  by rewrite !String.eqb_refl.
Qed.

Lemma prefix_is_a_parameter_witness :
  slackbot_command_parse "/slackbot suspend myTaskB" "/slackbot"
  = slackbot_command_parse "!bot suspend myTaskB" "!bot".
Proof.
  apply (prefix_is_a_parameter
           "/slackbot suspend myTaskB" "!bot suspend myTaskB" "/slackbot" "!bot"
           ["suspend"; "myTaskB"] eq_refl eq_refl).
Defined.

(** X5.  A [create] record keeps the numbers, not their spelling: two
    parameter tokens with the same name and description, whose
    priority fields read as the same integer and whose percentage
    fields read as the same integer, give the same result. *)
Theorem create_reads_numbers line1 line2 prefix param1 param2 rest1 rest2
    tn td pl1 pc1 pl2 pc2 :
  Shlex.split line1 = Return (prefix :: "create" :: param1 :: rest1) →
  Shlex.split line2 = Return (prefix :: "create" :: param2 :: rest2) →
  Py.split ":" param1 = [tn; td; pl1; pc1] →
  Py.split ":" param2 = [tn; td; pl2; pc2] →
  Py.int pl1 = Py.int pl2 → Py.int pc1 = Py.int pc2 →
  slackbot_command_parse line1 prefix = slackbot_command_parse line2 prefix.
Proof.
  intros H1 H2 F1 F2 Hpl Hpc.
  rewrite (parse_tokens _ _ _ _ _ _ H1), (parse_tokens _ _ _ _ _ _ H2), F1, F2.
  unfold record_of, checked_int. simpl. by rewrite Hpl, Hpc.
Qed.

Lemma create_reads_numbers_witness :
  slackbot_command_parse "/slackbot create a:b:1:10" "/slackbot"
  = slackbot_command_parse "/slackbot create a:b:+01:1_0" "/slackbot".
Proof.
  apply (create_reads_numbers
           "/slackbot create a:b:1:10" "/slackbot create a:b:+01:1_0" "/slackbot"
           "a:b:1:10" "a:b:+01:1_0" [] [] "a" "b" "1" "10" "+01" "1_0");
    reflexivity.
Defined.

(** X6.  When the body of the [try] raises, [ret_dict] is still the
    empty dictionary: no exception is raised after an assignment, so
    the handler never returns a record; and when the body returns, it
    returns [ret_dict]. *)
Theorem exception_leaves_ret_dict_empty line prefix :
  match try_body line prefix ∅ with
  | (Raise _, ret_dict) => ret_dict = ∅
  | (Return d, ret_dict) => d = ret_dict
  end.
Proof.
  run.
  destruct (Shlex.split line) as [[|p0 [|p1 [|p2 rest]]]|e]; simpl; try done.
  - destruct (String.eqb p0 prefix); done.
  - destruct (String.eqb p0 prefix); [|done]. simpl.
    destruct (String.eqb_spec p1 "create") as [->|_]; [done|].
    destruct (String.eqb_spec p1 "update") as [->|_]; [done|].
    destruct (String.eqb_spec p1 "suspend") as [->|_]; [done|].
    destruct (String.eqb_spec p1 "abandon") as [->|_]; done.
  - destruct (String.eqb p0 prefix); [|done].
    generalize (Py.split ":" p2). intros fields.
    destruct (String.eqb_spec p1 "create") as [->|_].
    { destruct fields as [|tn [|td [|pl [|pc [|? ?]]]]]; simpl; try done.
      destruct (Py.nonempty tn); simpl; [|done].
      destruct (Py.nonempty td); simpl; [|done].
      destruct (Py.int pl) as [n|?]; simpl; [|done].
      destruct (bool_decide (n ∈ priority_level_list)); simpl;
        destruct (Py.int pc) as [m|?]; simpl; try done.
      destruct (0 <=? m)%Z, (m <? 101)%Z; simpl; done. }
    destruct (String.eqb_spec p1 "update") as [->|_].
    { destruct fields as [|tn [|td [|pl [|pc [|? ?]]]]]; simpl; try done.
      destruct (Py.nonempty tn); simpl; [|done].
      destruct (Py.int pc) as [m|?]; simpl; [|done].
      destruct ((0 <=? m)%Z && (m <? 101)%Z); simpl; [|done].
      destruct (Py.nonempty pl); simpl; [|done].
      destruct (Py.int pl) as [n|?]; simpl; [|done].
      destruct (bool_decide (n ∈ priority_level_list)); simpl; done. }
    destruct (String.eqb_spec p1 "suspend") as [->|_].
    { destruct fields as [|tn [|? ?]]; simpl; try done.
      destruct (Py.nonempty tn); simpl; done. }
    destruct (String.eqb_spec p1 "abandon") as [->|_].
    { destruct fields as [|tn [|? ?]]; simpl; try done.
      destruct (Py.nonempty tn); simpl; done. }
    done.
Qed.

(** ** The driver's sample lines *)


(** ** The lexer on plain text and on quotes *)

Lemma append_cons c s t : String c s ++ t = String c (s ++ t).
Proof. reflexivity. Qed.

Lemma append_empty_r s : s ++ "" = s.
Proof. induction s as [|c s IH]; [done|]. by rewrite append_cons, IH. Qed.

Lemma append_assoc s t u : (s ++ t) ++ u = s ++ (t ++ u).
Proof. induction s as [|c s IH]; [done|]. by rewrite !append_cons, IH. Qed.

Lemma add_append token c w : Shlex.add token c ++ w = token ++ String c w.
Proof. unfold Shlex.add. by rewrite append_assoc. Qed.


Lemma nonempty_append_l s t : Py.nonempty s = true → Py.nonempty (s ++ t) = true.
Proof. by destruct s. Qed.

Lemma nonempty_add token c : Py.nonempty (Shlex.add token c) = true.
Proof. by destruct token. Qed.

Lemma plain_spec c :
  plain c = true →
  Shlex.whitespace c = false ∧ Shlex.quotes c = false ∧ Shlex.escape c = false.
Proof.
  unfold plain. rewrite negb_true_iff, !orb_false_iff. tauto.
Qed.

(** Inside a word, plain characters join the token. *)
Lemma read_word_plain w es quoted token rest :
  all_chars plain w = true →
  Shlex.read Shlex.Word es quoted token (w ++ rest)
  = Shlex.read Shlex.Word es quoted (token ++ w) rest.
Proof.
  revert token. induction w as [|c w IH]; intros token Hw.
  - by rewrite append_empty_r.
  - simpl in Hw. apply andb_true_iff in Hw as [Hc Hw].
    apply plain_spec in Hc as (Hws & Hq & He).
    rewrite append_cons. simpl. rewrite Hws, Hq, He.
    rewrite (IH _ Hw). by rewrite add_append.
Qed.

(** Between tokens, a plain character starts a word. *)
Lemma read_blank_plain c es rest :
  plain c = true →
  Shlex.read Shlex.Blank es false "" (String c rest)
  = Shlex.read Shlex.Word es false (String c "") rest.
Proof.
  intros (Hws & Hq & He)%plain_spec. simpl. by rewrite Hws, He, Hq.
Qed.

(** A blank ends the word: the token is emitted. *)
Lemma read_word_blank es quoted token rest :
  Py.nonempty token = true →
  Shlex.read Shlex.Word es quoted token (String " " rest)
  = match Shlex.read Shlex.Blank Shlex.Blank false "" rest with
    | Return tokens => Return (token :: tokens)
    | Raise e => Raise e
    end.
Proof.
  intros Hne. simpl. rewrite Hne. simpl. unfold Shlex.emit.
  by rewrite Hne, andb_false_r.
Qed.

(** The end of the text ends the word. *)
Lemma read_word_end es quoted token :
  Py.nonempty token = true →
  Shlex.read Shlex.Word es quoted token "" = Return [token].
Proof.
  intros Hne. simpl. unfold Shlex.emit. by rewrite Hne, andb_false_r.
Qed.


(** ** Text that reads as an integer holds no colon *)










(** Numbers as [int] reads them, in a line: a separator character
    before or after the digits is no white space; digits of another
    script are read. *)
Example create_separator_before_level :
  slackbot_command_parse ("/slackbot create a:b:" ++ String "028" "1:10")
    "/slackbot" = Return ∅.
Proof. reflexivity. Qed.

Example update_separator_after_percent :
  slackbot_command_parse ("/slackbot update t:d::40" ++ String "031" "")
    "/slackbot" = Return ∅.
Proof. reflexivity. Qed.

Example create_fullwidth_level :
  slackbot_command_parse
    ("/slackbot create a:b:" ++ String "239" (String "188" (String "145" ":10")))
    "/slackbot"
  = Return (display (VStr "create") (VStr "a") (VStr "b") (VInt 1) (VInt 10)).
Proof. reflexivity. Qed.

(** ** Lines in the documented syntax *)

(** A plain word that ends the text is the last token. *)
Lemma read_last_word w :
  all_chars plain w = true → w ≠ "" →
  Shlex.read Shlex.Blank Shlex.Blank false "" w = Return [w].
Proof.
  destruct w as [|c w]; [done|]. intros Hw _.
  simpl in Hw. apply andb_true_iff in Hw as [Hc Hw].
  rewrite read_blank_plain by done.
  rewrite <- (append_empty_r w) at 1. rewrite read_word_plain by done.
  by rewrite read_word_end.
Qed.

(** A plain word followed by a blank is a token. *)
Lemma read_word_then_blank w rest :
  all_chars plain w = true → w ≠ "" →
  Shlex.read Shlex.Blank Shlex.Blank false "" (w ++ String " " rest)
  = match Shlex.read Shlex.Blank Shlex.Blank false "" rest with
    | Return tokens => Return (w :: tokens)
    | Raise e => Raise e
    end.
Proof.
  destruct w as [|c w]; [done|]. intros Hw _.
  simpl in Hw. apply andb_true_iff in Hw as [Hc Hw].
  rewrite append_cons, read_blank_plain by done.
  rewrite read_word_plain by done. by rewrite read_word_blank.
Qed.


(** The tokens of a line made of a prefix, a command word and a last
    part. *)
Lemma split_prefix_command prefix command rest :
  all_chars plain prefix = true → prefix ≠ "" →
  all_chars plain command = true → command ≠ "" →
  Shlex.split (prefix ++ " " ++ command ++ " " ++ rest)
  = match Shlex.read Shlex.Blank Shlex.Blank false "" rest with
    | Return tokens => Return (prefix :: command :: tokens)
    | Raise e => Raise e
    end.
Proof.
  intros Hp Hp' Hc Hc'. unfold Shlex.split.
  change (" " ++ command ++ " " ++ rest) with (String " " (command ++ String " " rest)).
  rewrite read_word_then_blank by done.
  rewrite read_word_then_blank by done.
  by destruct (Shlex.read Shlex.Blank Shlex.Blank false "" rest).
Qed.



(** X8.  [/slackbot suspend <task_name>] and [/slackbot abandon
    <task_name>], as the docstring writes them: for every prefix and
    every task name made of plain characters — no white space, quote
    or backslash — and not empty, the name without a colon, the line
    parses to the record of that command and that name. *)
Theorem suspend_abandon_line prefix command tn :
  command = "suspend" ∨ command = "abandon" →
  all_chars plain prefix = true → prefix ≠ "" →
  all_chars plain tn = true → tn ≠ "" → occurs ":" tn = false →
  slackbot_command_parse (prefix ++ " " ++ command ++ " " ++ tn) prefix
  = Return (display (VStr command) (VStr tn) (VStr "") (VStr "") (VStr "")).
Proof.
  intros Hcmd Hp Hp' Htn Htn' Hcolon.
  assert (Htok : Shlex.split (prefix ++ " " ++ command ++ " " ++ tn)
                 = Return [prefix; command; tn]).
  { rewrite split_prefix_command; try done.
    - by rewrite read_last_word.
    - by destruct Hcmd as [->| ->].
    - by destruct Hcmd as [->| ->]. }
  rewrite (parse_tokens _ _ _ _ _ _ Htok), String.eqb_refl, split_single by done.
  f_equal. apply record_of_accepts.
  destruct Hcmd as [->| ->]; [by apply accepts_suspend | by apply accepts_abandon].
Qed.

Lemma suspend_abandon_line_witness :
  slackbot_command_parse ("!bot" ++ " " ++ "abandon" ++ " " ++ "task-7") "!bot"
  = Return (display (VStr "abandon") (VStr "task-7") (VStr "") (VStr "") (VStr "")).
Proof.
  apply suspend_abandon_line; try done. by right.
Defined.






(** ** Quotes left open, blanks in front *)

(** Inside quotes that the rest of the text never closes, the lexer
    reaches the end of the text and raises. *)
Lemma read_quote_never_closed q body :
  occurs q body = false →
  (∀ es quoted token,
     Shlex.read (Shlex.Quoted q) es quoted token body = Raise ValueError)
  ∧ (∀ e quoted token,
       Shlex.read (Shlex.Escaped e) (Shlex.Quoted q) quoted token body
       = Raise ValueError).
Proof.
  induction body as [|c body IH]; [done|].
  simpl. intros [Hc Hbody]%orb_false_iff.
  destruct (IH Hbody) as [IHq IHe]. split.
  - intros es quoted token. rewrite Hc.
    destruct (Shlex.escape c && Shlex.escapedquotes q); [apply IHe | apply IHq].
  - intros e quoted token. apply IHq.
Qed.

(** Before the first quote or backslash, the lexer is between tokens
    with nothing collected, or inside a word. *)
Lemma read_until_quote pre q body st es quoted token :
  all_chars unquoting pre = true → Shlex.quotes q = true →
  occurs q body = false →
  (st = Shlex.Blank ∧ token = "" ∧ quoted = false)
  ∨ (st = Shlex.Word ∧ Py.nonempty token = true) →
  Shlex.read st es quoted token (pre ++ String q body) = Raise ValueError.
Proof.
  intros Hpre Hq Hbody. revert st es quoted token.
  assert (Hqw : Shlex.whitespace q = false ∧ Shlex.escape q = false).
  { unfold Shlex.quotes in Hq. apply orb_true_iff in Hq as [Hq|Hq];
      apply Ascii.eqb_eq in Hq as ->; done. }
  destruct Hqw as [Hqw Hqe].
  induction pre as [|c pre IH]; intros st es quoted token Hst.
  - change ("" ++ String q body) with (String q body).
    destruct Hst as [(-> & -> & ->)|[-> Hne]]; simpl; rewrite Hqw, ?Hqe, Hq;
      apply (read_quote_never_closed q body Hbody).
  - simpl in Hpre. apply andb_true_iff in Hpre as [Hc Hpre].
    specialize (IH Hpre). unfold unquoting in Hc.
    apply negb_true_iff, orb_false_iff in Hc as [Hcq Hce].
    rewrite append_cons.
    destruct Hst as [(-> & -> & ->)|[-> Hne]]; simpl; rewrite Hcq, Hce.
    + destruct (Shlex.whitespace c); apply IH; auto.
    + destruct (Shlex.whitespace c).
      * rewrite Hne. simpl. unfold Shlex.emit. rewrite Hne, andb_false_r.
        rewrite IH; auto.
      * apply IH. right. split; [done|]. apply nonempty_add.
Qed.

(** X11.  A quote that opens after text free of quotes and
    backslashes, and that the rest of the line never closes, makes
    [shlex.split] raise [ValueError]; the parser catches it and
    returns the empty dictionary. *)
Theorem unclosed_quote_is_empty pre q body prefix :
  all_chars unquoting pre = true → Shlex.quotes q = true →
  occurs q body = false →
  Shlex.split (pre ++ String q body) = Raise ValueError
  ∧ slackbot_command_parse (pre ++ String q body) prefix = Return ∅.
Proof.
  intros Hpre Hq Hbody.
  assert (Hsplit : Shlex.split (pre ++ String q body) = Raise ValueError).
  { unfold Shlex.split. apply read_until_quote; auto. }
  split; [done|]. by rewrite parse_closed_form, Hsplit.
Qed.

Lemma unclosed_quote_is_empty_witness :
  Shlex.split ("/slackbot create myTaskA:" ++ String "'" "plain vanilla task:1:10")
  = Raise ValueError
  ∧ slackbot_command_parse
      ("/slackbot create myTaskA:" ++ String "'" "plain vanilla task:1:10")
      "/slackbot" = Return ∅.
Proof.
  apply unclosed_quote_is_empty; reflexivity.
Defined.

(** X12.  White space in front of the line is skipped: the tokens and
    the result are those of the line without it. *)
Theorem leading_blanks_ignored blanks line prefix :
  all_chars Shlex.whitespace blanks = true →
  Shlex.split (blanks ++ line) = Shlex.split line
  ∧ slackbot_command_parse (blanks ++ line) prefix
    = slackbot_command_parse line prefix.
Proof.
  intros Hb.
  assert (Hsplit : Shlex.split (blanks ++ line) = Shlex.split line).
  { unfold Shlex.split. induction blanks as [|c blanks IH]; [done|].
    simpl in Hb. apply andb_true_iff in Hb as [Hc Hb].
    rewrite append_cons. simpl. rewrite Hc. by apply IH. }
  split; [done|]. by rewrite !parse_closed_form, Hsplit.
Qed.

Lemma leading_blanks_ignored_witness :
  Shlex.split ("  " ++ "/slackbot suspend myTaskB")
  = Shlex.split "/slackbot suspend myTaskB"
  ∧ slackbot_command_parse ("  " ++ "/slackbot suspend myTaskB") "/slackbot"
    = slackbot_command_parse "/slackbot suspend myTaskB" "/slackbot".
Proof.
  apply leading_blanks_ignored. reflexivity.
Defined.
